(** * REST handlers of rucio: account limits and DIRAC file registration

    A shallow embedding of
      lib/rucio/web/rest/flaskapi/v1/account_limit.py
      lib/rucio/web/rest/flaskapi/v1/dirac.py
    Each handler decodes the request body, picks the fields it needs,
    calls one function of the rucio API and turns the outcome into a
    Flask response.  Python exceptions are kept explicit: a handler
    either returns a response or lets an exception escape. *)

From Stdlib Require Import String Ascii List ZArith Bool.
Import ListNotations.
Set Warnings "-register-all,-notation-for-abbreviation".
Local Open Scope string_scope.
Local Open Scope Z_scope.

(** ** Python values *)

(** The values a decoded JSON body is made of, together with [None] and
    the strings the WSGI environment holds.  A [float] keeps the text
    of its literal; a [dict] keeps its items in insertion order, each
    key once. *)
Inductive PyVal : Type :=
| PyNone : PyVal
| PyBool (b : bool) : PyVal
| PyInt (z : Z) : PyVal
| PyFloat (literal : string) : PyVal
| PyStr (s : string) : PyVal
| PyList (items : list PyVal) : PyVal
| PyDict (items : list (string * PyVal)) : PyVal.

Definition False_ : PyVal := PyBool false.

(** ** Exceptions *)

(** The exception classes the two modules name, the builtin ones the
    interpreter raises while a handler runs, and two open families for
    every other class, carrying the class's [__name__].  In
    [rucio.common.exception] every class listed from [AccessDenied] on
    derives directly from [RucioException], which derives from
    [Exception]. *)
Inductive PyClass : Type :=
| Exception
| ValueError
| KeyError
| TypeError
| OtherException (name : string)
| RucioException
| AccessDenied
| RSENotFound
| AccountNotFound
| InvalidPath
| InvalidType
| UnsupportedOperation
| Duplicate
| DataIdentifierAlreadyExists
| DatabaseException
| ResourceTemporaryUnavailable
| OtherRucioException (name : string).

Definition class_eqb (c d : PyClass) : bool :=
  match c, d with
  | Exception, Exception
  | ValueError, ValueError
  | KeyError, KeyError
  | TypeError, TypeError
  | RucioException, RucioException
  | AccessDenied, AccessDenied
  | RSENotFound, RSENotFound
  | AccountNotFound, AccountNotFound
  | InvalidPath, InvalidPath
  | InvalidType, InvalidType
  | UnsupportedOperation, UnsupportedOperation
  | Duplicate, Duplicate
  | DataIdentifierAlreadyExists, DataIdentifierAlreadyExists
  | DatabaseException, DatabaseException
  | ResourceTemporaryUnavailable, ResourceTemporaryUnavailable => true
  | OtherException a, OtherException b => String.eqb a b
  | OtherRucioException a, OtherRucioException b => String.eqb a b
  | _, _ => false
  end.

(** [__name__] of a class. *)
Definition class_name (c : PyClass) : string :=
  match c with
  | Exception => "Exception"
  | ValueError => "ValueError"
  | KeyError => "KeyError"
  | TypeError => "TypeError"
  | OtherException name => name
  | RucioException => "RucioException"
  | AccessDenied => "AccessDenied"
  | RSENotFound => "RSENotFound"
  | AccountNotFound => "AccountNotFound"
  | InvalidPath => "InvalidPath"
  | InvalidType => "InvalidType"
  | UnsupportedOperation => "UnsupportedOperation"
  | Duplicate => "Duplicate"
  | DataIdentifierAlreadyExists => "DataIdentifierAlreadyExists"
  | DatabaseException => "DatabaseException"
  | ResourceTemporaryUnavailable => "ResourceTemporaryUnavailable"
  | OtherRucioException name => name
  end.

(** The classes deriving from [RucioException] (itself included). *)
Definition is_rucio (c : PyClass) : bool :=
  match c with
  | Exception | ValueError | KeyError | TypeError | OtherException _ => false
  | _ => true
  end.

(** [issubclass c d]: every class derives from [Exception], the rucio
    ones from [RucioException], and otherwise a class only from
    itself. *)
Definition issubclass (c d : PyClass) : bool :=
  match d with
  | Exception => true
  | RucioException => is_rucio c
  | _ => class_eqb c d
  end.

(** An exception object: its class, [args[0]] and what [str] gives for
    it (a class is free to compute the latter as it likes;
    [RucioException] prefixes a class message, [KeyError] quotes the
    key). *)
Record PyExc : Type := mkExc {
  exc_class : PyClass;
  exc_args0 : string;
  exc_str : string
}.

Definition isinstance (e : PyExc) (c : PyClass) : bool :=
  issubclass (exc_class e) c.

(** ** Outcomes and effects *)

Inductive Result (A : Type) : Type :=
| Return (a : A)
| Raise (e : PyExc).
Arguments Return {A} a.
Arguments Raise {A} e.

(** The calls into [rucio.api] a handler can make, with the keyword
    arguments of the source in their order. *)
Inductive Call : Type :=
| SetLocalAccountLimit (account rse : string) (bytes issuer vo : PyVal)
| DeleteLocalAccountLimit (account rse : string) (issuer vo : PyVal)
| SetGlobalAccountLimit (account rse_expression : string) (bytes issuer vo : PyVal)
| DeleteGlobalAccountLimit (account rse_expression : string) (issuer vo : PyVal)
| AddFilesCall (lfns issuer ignore_availability : PyVal).

(** What a handler does besides computing its answer. *)
Inductive Event : Type :=
| Invoked (c : Call)
| PrintedTraceback (e : PyExc).

Definition Trace : Type := list Event.

(** The calls a trace records. *)
Definition invoked (t : Trace) : list Call :=
  flat_map (fun ev => match ev with Invoked c => [c] | _ => [] end) t.

(** Handler code: it extends the trace of effects and returns or raises. *)
Definition M (A : Type) : Type := Trace -> Result A * Trace.

Definition ret {A} (a : A) : M A := fun t => (Return a, t).
Definition raise {A} (e : PyExc) : M A := fun t => (Raise e, t).
Definition bind {A B} (m : M A) (k : A -> M B) : M B :=
  fun t => match m t with
           | (Return a, t') => k a t'
           | (Raise e, t') => (Raise e, t')
           end.
Definition lift {A} (r : Result A) : M A := fun t => (r, t).
Definition emit (ev : Event) : M unit := fun t => (Return tt, (t ++ [ev])%list).

Notation "x <- m ;; k" := (bind m (fun x => k))
  (at level 61, m at next level, right associativity).
Notation "m ;;; k" := (bind m (fun _ => k))
  (at level 61, right associativity).

(** One [except] clause: the classes it names and its body.  Every
    clause of the two modules ends the handler, by [return] or by
    [raise]. *)
Definition Clause (R : Type) : Type := (list PyClass * (PyExc -> M R))%type.

Fixpoint select_clause {R} (clauses : list (Clause R)) (error : PyExc)
  : option (M R) :=
  match clauses with
  | [] => None
  | (classes, body) :: rest =>
      if existsb (isinstance error) classes then Some (body error)
      else select_clause rest error
  end.

(** [try: x = body / except ...: / <rest of the function>].  The first
    clause matching the exception decides the handler's result; an
    exception no clause matches escapes. *)
Definition try_except {A R} (body : M A) (clauses : list (Clause R))
  (rest : A -> M R) : M R :=
  fun t => match body t with
           | (Return a, t') => rest a t'
           | (Raise error, t') =>
               match select_clause clauses error with
               | Some h => h t'
               | None => (Raise error, t')
               end
           end.

(** ** Requests and responses *)

Record Request : Type := mkRequest {
  data : string;
  environ : list (string * PyVal)
}.

Fixpoint assoc_get (items : list (string * PyVal)) (key : string)
  : option PyVal :=
  match items with
  | [] => None
  | (k, v) :: rest => if String.eqb k key then Some v else assoc_get rest key
  end.

(** [request.environ.get(key)] *)
Definition environ_get (request : Request) (key : string) : PyVal :=
  match assoc_get (environ request) key with
  | Some v => v
  | None => PyNone
  end.

Inductive Body : Type :=
| Text (s : string)
| ErrorObject (exc_cls exc_msg : string).

Record Response : Type := mkResponse {
  status : Z;
  body : Body
}.

(** Modelled from the spec: [rucio.web.rest.utils.generate_http_error_flask]
    is not among the sources.  The spec fixes its contract: a response
    with the given status whose body is the object
    [{"ExceptionClass": <kind>, "ExceptionMessage": <message>}]. *)
Definition generate_http_error_flask (status_code : Z) (exc_cls exc_msg : string)
  : Response :=
  mkResponse status_code (ErrorObject exc_cls exc_msg).

(** ** A reader for JSON texts

    The handlers below take the decoder of the [json] library as a
    parameter.  To run them on concrete bodies, here is a reader for a
    fragment of RFC 8259: objects, arrays, strings with the
    two-character escapes, integers and the three literals, with
    whitespace between tokens.  Fractions, exponents and [\u] escapes
    are outside the fragment and reported as failures. *)
Module JsonReader.

Definition is_ws (c : ascii) : bool :=
  match c with
  | " "%char | "009"%char | "010"%char | "013"%char => true
  | _ => false
  end.

Fixpoint skip_ws (s : string) : string :=
  match s with
  | String c r => if is_ws c then skip_ws r else s
  | EmptyString => s
  end.

Definition is_digit (c : ascii) : bool :=
  ((48 <=? nat_of_ascii c) && (nat_of_ascii c <=? 57))%nat.

Definition digit (c : ascii) : Z := Z.of_nat (nat_of_ascii c) - 48.

Fixpoint read_digits (acc : Z) (s : string) : Z * string :=
  match s with
  | String c r => if is_digit c then read_digits (10 * acc + digit c) r else (acc, s)
  | EmptyString => (acc, s)
  end.

(** After an integer no fraction or exponent may follow, and a leading
    zero stands alone. *)
Definition read_nat (s : string) : option (Z * string) :=
  match s with
  | String c r =>
      if is_digit c then
        let '(z, r') := read_digits 0 s in
        match r' with
        | String "."%char _ | String "e"%char _ | String "E"%char _ => None
        | _ => if (c =? "0")%char && negb (String.length s - String.length r' =? 1)%nat
               then None else Some (z, r')
        end
      else None
  | EmptyString => None
  end.

Definition read_int (s : string) : option (PyVal * string) :=
  match s with
  | String "-"%char r =>
      match read_nat r with
      | Some (z, r') => Some (PyInt (- z), r')
      | None => None
      end
  | _ =>
      match read_nat s with
      | Some (z, r') => Some (PyInt z, r')
      | None => None
      end
  end.

(** The characters after an opening quote, up to the closing one. *)
Fixpoint read_chars (s : string) : option (string * string) :=
  match s with
  | EmptyString => None
  | String "034"%char r => Some (EmptyString, r)
  | String "\"%char (String e r) =>
      let unescaped :=
        match e with
        | "034"%char => Some "034"%char
        | "\"%char => Some "\"%char
        | "/"%char => Some "/"%char
        | "b"%char => Some "008"%char
        | "f"%char => Some "012"%char
        | "n"%char => Some "010"%char
        | "r"%char => Some "013"%char
        | "t"%char => Some "009"%char
        | _ => None
        end in
      match unescaped, read_chars r with
      | Some c, Some (body, r') => Some (String c body, r')
      | _, _ => None
      end
  | String "\"%char EmptyString => None
  | String c r =>
      if (nat_of_ascii c <? 32)%nat then None
      else match read_chars r with
           | Some (body, r') => Some (String c body, r')
           | None => None
           end
  end.

Fixpoint strip_prefix (p s : string) : option string :=
  match p, s with
  | EmptyString, _ => Some s
  | String a p', String b s' => if (a =? b)%char then strip_prefix p' s' else None
  | String _ _, EmptyString => None
  end.

(** [d[k] = v] on the items of a dict: a key already present keeps its
    place and takes the new value. *)
Fixpoint dict_set (items : list (string * PyVal)) (k : string) (v : PyVal)
  : list (string * PyVal) :=
  match items with
  | [] => [(k, v)]
  | (k', v') :: rest =>
      if String.eqb k' k then (k', v) :: rest else (k', v') :: dict_set rest k v
  end.

Fixpoint read_value (fuel : nat) (s : string) {struct fuel}
  : option (PyVal * string) :=
  match fuel with
  | O => None
  | S n =>
      match skip_ws s with
      | String "{"%char r =>
          match skip_ws r with
          | String "}"%char r' => Some (PyDict [], r')
          | r1 => read_members n [] r1
          end
      | String "["%char r =>
          match skip_ws r with
          | String "]"%char r' => Some (PyList [], r')
          | r1 => read_items n [] r1
          end
      | String "034"%char r =>
          match read_chars r with
          | Some (str, r') => Some (PyStr str, r')
          | None => None
          end
      | s1 =>
          match strip_prefix "null" s1, strip_prefix "true" s1,
                strip_prefix "false" s1 with
          | Some r, _, _ => Some (PyNone, r)
          | _, Some r, _ => Some (PyBool true, r)
          | _, _, Some r => Some (PyBool false, r)
          | _, _, _ => read_int s1
          end
      end
  end
with read_items (fuel : nat) (acc : list PyVal) (s : string) {struct fuel}
  : option (PyVal * string) :=
  match fuel with
  | O => None
  | S n =>
      match read_value n s with
      | Some (v, r) =>
          match skip_ws r with
          | String ","%char r' => read_items n (v :: acc) r'
          | String "]"%char r' => Some (PyList (rev (v :: acc)), r')
          | _ => None
          end
      | None => None
      end
  end
with read_members (fuel : nat) (acc : list (string * PyVal)) (s : string)
  {struct fuel} : option (PyVal * string) :=
  match fuel with
  | O => None
  | S n =>
      match skip_ws s with
      | String "034"%char r =>
          match read_chars r with
          | Some (k, r1) =>
              match skip_ws r1 with
              | String ":"%char r2 =>
                  match read_value n r2 with
                  | Some (v, r3) =>
                      match skip_ws r3 with
                      | String ","%char r4 => read_members n (dict_set acc k v) r4
                      | String "}"%char r4 => Some (PyDict (dict_set acc k v), r4)
                      | _ => None
                      end
                  | None => None
                  end
              | _ => None
              end
          | None => None
          end
      | _ => None
      end
  end.

(** The whole text must be one value. *)
Definition decode (s : string) : PyVal + string :=
  match read_value (2 * String.length s + 2) s with
  | Some (v, r) =>
      match skip_ws r with
      | EmptyString => inl v
      | _ => inr "Extra data"
      end
  | None => inr "Expecting value"
  end.

End JsonReader.

(** The five operations the blueprints route to, with their path
    parameters. *)
Inductive Operation : Type :=
| LocalPost (account rse : string)
| LocalDelete (account rse : string)
| GlobalPost (account rse_expression : string)
| GlobalDelete (account rse_expression : string)
| AddFilesPost.

Definition is_dict (v : PyVal) : bool :=
  match v with
  | PyDict _ => true
  | _ => false
  end.

(** The classes [AddFiles.post] names in a clause of their own. *)
Definition named_in_AddFiles : list PyClass :=
  [ InvalidPath; AccessDenied; UnsupportedOperation; Duplicate;
    DataIdentifierAlreadyExists; RSENotFound; DatabaseException;
    ResourceTemporaryUnavailable ].

(** The status [AddFiles.post] gives each kind, as the spec lists them. *)
Definition registration_status : list (PyClass * Z) :=
  [ (UnsupportedOperation, 405); (Duplicate, 409);
    (DataIdentifierAlreadyExists, 409); (DatabaseException, 503);
    (ResourceTemporaryUnavailable, 503); (RSENotFound, 404) ].

(** The event of the global handler matching one of the local handler:
    the same call but for the function and the path parameter. *)
Definition to_global (rse_expression : string) (ev : Event) : Event :=
  match ev with
  | Invoked (SetLocalAccountLimit account _ bytes issuer vo) =>
      Invoked (SetGlobalAccountLimit account rse_expression bytes issuer vo)
  | _ => ev
  end.

(** The event of the global delete handler matching one of the local
    delete handler. *)
Definition delete_to_global (rse_expression : string) (ev : Event) : Event :=
  match ev with
  | Invoked (DeleteLocalAccountLimit account _ issuer vo) =>
      Invoked (DeleteGlobalAccountLimit account rse_expression issuer vo)
  | _ => ev
  end.

(** ** Sample requests and API behaviours *)
Module Sample.

Definition quote : string := String "034"%char EmptyString.

(** The body of a limit request: an object with [bytes] set to 1000. *)
Definition limit_body : string :=
  "{" ++ quote ++ "bytes" ++ quote ++ ": 1000}".

(** The body of a registration request: one logical file name. *)
Definition lfns_body : string :=
  "{" ++ quote ++ "lfns" ++ quote ++ ": [{" ++ quote ++ "lfn" ++ quote ++ ": "
      ++ quote ++ "/lhcb/user/f" ++ quote ++ "}]}".

Definition env : list (string * PyVal) :=
  [("issuer", PyStr "root"); ("vo", PyStr "def")].

Definition limit_request : Request := mkRequest limit_body env.
Definition lfns_request : Request := mkRequest lfns_body env.
Definition empty_object_request : Request := mkRequest "{}" env.
Definition empty_request : Request := mkRequest "" env.
Definition list_request : Request := mkRequest "[1, 2]" env.

(** An API whose every call succeeds, and one whose every call raises
    the given exception. *)
Definition api_ok (_ : Call) : Result unit := Return tt.
Definition api_raising (error : PyExc) (_ : Call) : Result unit := Raise error.

Definition denied : PyExc :=
  mkExc AccessDenied "Account root is not allowed"
    "Access to the requested resource denied. Details: Account root is not allowed".
Definition bad_path : PyExc :=
  mkExc InvalidPath "The path does not follow the convention"
    "The path provided is invalid. Details: The path does not follow the convention".
Definition no_scope : PyExc :=
  mkExc (OtherRucioException "ScopeNotFound") "Scope lhcb not found"
    "Scope does not exist. Details: Scope lhcb not found".
Definition exists_already : PyExc :=
  mkExc DataIdentifierAlreadyExists "Data identifier already exists"
    "Data Identifier Already Exists. Details: Data identifier already exists".

Definition no_account : PyExc :=
  mkExc AccountNotFound "Account alice does not exist"
    "Account does not exist. Details: Account alice does not exist".
Definition broken : PyExc :=
  mkExc (OtherException "OperationalError") "connection lost" "connection lost".

(** A limit request whose [bytes] is a string, from a caller without
    [vo]. *)
Definition text_limit_request : Request :=
  mkRequest ("{" ++ quote ++ "bytes" ++ quote ++ ": " ++ quote ++ "lots"
                 ++ quote ++ "}")
    [("issuer", PyStr "root")].

Definition not_subscriptable (_ : PyVal) : string := "object is not subscriptable".
Definition no_attribute (_ : PyVal) : string := "object has no attribute 'get'".

End Sample.

(** ** The handlers *)

Section Handlers.

(** [json.loads] of the standard library: the decoded value, or the
    text of the [JSONDecodeError] (a [ValueError]) it raises.  The
    errors of the interpreter that are no [ValueError] and that
    decoding can also end in ([RecursionError] on a deeply nested
    body, [MemoryError]) are not modelled: no clause of the handlers
    catches them, and nothing below states that every body is
    answered. *)
Variable json_decode : string -> PyVal + string.

(** The functions of [rucio.api] behind the handlers: what each call
    does, as far as a handler can see. *)
Variable api : Call -> Result unit.

(** The interpreter's message when a value that is no dict is
    subscripted, and when it is asked for an attribute it lacks. *)
Variable subscript_error_text : PyVal -> string.
Variable attribute_error_text : PyVal -> string.

Definition loads (json_data : string) : M PyVal :=
  match json_decode json_data with
  | inl v => ret v
  | inr msg => raise (mkExc ValueError msg msg)
  end.

(** Modelled from the spec: [rucio.common.utils.parse_response] is not
    among the sources.  The spec's request decoder parses the body as
    JSON and fails with a decode error on anything else; the decoder
    is the one of [loads]. *)
Definition parse_response (json_data : string) : M PyVal :=
  loads json_data.

(** [repr] of a key written in the source as a plain literal. *)
Definition repr_key (key : string) : string := "'" ++ key ++ "'".

(** [value[key]] for a string key. *)
Definition getitem (value : PyVal) (key : string) : M PyVal :=
  match value with
  | PyDict items =>
      match assoc_get items key with
      | Some v => ret v
      | None => raise (mkExc KeyError key (repr_key key))
      end
  | _ => let msg := subscript_error_text value in
         raise (mkExc TypeError msg msg)
  end.

(** [value.get(key, default)] *)
Definition get (value : PyVal) (key : string) (default : PyVal) : M PyVal :=
  match value with
  | PyDict items =>
      match assoc_get items key with
      | Some v => ret v
      | None => ret default
      end
  | _ => let msg := attribute_error_text value in
         raise (mkExc (OtherException "AttributeError") msg msg)
  end.

Definition invoke (c : Call) : M unit :=
  emit (Invoked c) ;;; lift (api c).

Definition set_local_account_limit account rse bytes issuer vo : M unit :=
  invoke (SetLocalAccountLimit account rse bytes issuer vo).
Definition delete_local_account_limit account rse issuer vo : M unit :=
  invoke (DeleteLocalAccountLimit account rse issuer vo).
Definition set_global_account_limit account rse_expression bytes issuer vo
  : M unit :=
  invoke (SetGlobalAccountLimit account rse_expression bytes issuer vo).
Definition delete_global_account_limit account rse_expression issuer vo
  : M unit :=
  invoke (DeleteGlobalAccountLimit account rse_expression issuer vo).
Definition add_files lfns issuer ignore_availability : M unit :=
  invoke (AddFilesCall lfns issuer ignore_availability).

(** [print(format_exc())] followed by [return str(error), 500] *)
Definition print_and_500 (error : PyExc) : M Response :=
  emit (PrintedTraceback error) ;;; ret (mkResponse 500 (Text (exc_str error))).

Definition http_error (status_code : Z) (exc_cls : string) : PyExc -> M Response :=
  fun error => ret (generate_http_error_flask status_code exc_cls (exc_args0 error)).

(** account_limit.py, [LocalAccountLimit.post] *)
Definition LocalAccountLimit_post (request : Request) (account rse : string)
  : M Response :=
  let json_data := data request in
  try_except (loads json_data)
    [ ([ValueError], fun _ =>
         ret (generate_http_error_flask 400 "ValueError"
                "cannot decode json parameter dictionary")) ]
    (fun parameter =>
  try_except (getitem parameter "bytes")
    [ ([KeyError], fun error =>
         if String.eqb (exc_args0 error) "type"
         then ret (generate_http_error_flask 400 "KeyError"
                     (exc_str error ++ " not defined"))
         else raise error);
      ([TypeError], fun _ =>
         ret (generate_http_error_flask 400 "TypeError"
                "body must be a json dictionary")) ]
    (fun bytes =>
  try_except
    (set_local_account_limit account rse bytes
       (environ_get request "issuer") (environ_get request "vo"))
    [ ([AccessDenied], http_error 401 "AccessDenied");
      ([RSENotFound], http_error 404 "RSENotFound");
      ([AccountNotFound], http_error 404 "AccountNotFound");
      ([Exception], print_and_500) ]
    (fun _ => ret (mkResponse 201 (Text "Created"))))).

(** account_limit.py, [LocalAccountLimit.delete] *)
Definition LocalAccountLimit_delete (request : Request) (account rse : string)
  : M Response :=
  try_except
    (delete_local_account_limit account rse
       (environ_get request "issuer") (environ_get request "vo"))
    [ ([AccessDenied], http_error 401 "AccessDenied");
      ([AccountNotFound], http_error 404 "AccountNotFound");
      ([RSENotFound], http_error 404 "RSENotFound");
      ([Exception], print_and_500) ]
    (fun _ => ret (mkResponse 200 (Text ""))).

(** account_limit.py, [GlobalAccountLimit.post] *)
Definition GlobalAccountLimit_post (request : Request)
  (account rse_expression : string) : M Response :=
  let json_data := data request in
  try_except (loads json_data)
    [ ([ValueError], fun _ =>
         ret (generate_http_error_flask 400 "ValueError"
                "cannot decode json parameter dictionary")) ]
    (fun parameter =>
  try_except (getitem parameter "bytes")
    [ ([KeyError], fun error =>
         if String.eqb (exc_args0 error) "type"
         then ret (generate_http_error_flask 400 "KeyError"
                     (exc_str error ++ " not defined"))
         else raise error);
      ([TypeError], fun _ =>
         ret (generate_http_error_flask 400 "TypeError"
                "body must be a json dictionary")) ]
    (fun bytes =>
  try_except
    (set_global_account_limit account rse_expression bytes
       (environ_get request "issuer") (environ_get request "vo"))
    [ ([AccessDenied], http_error 401 "AccessDenied");
      ([RSENotFound], http_error 404 "RSENotFound");
      ([AccountNotFound], http_error 404 "AccountNotFound");
      ([Exception], print_and_500) ]
    (fun _ => ret (mkResponse 201 (Text "Created"))))).

(** account_limit.py, [GlobalAccountLimit.delete] *)
Definition GlobalAccountLimit_delete (request : Request)
  (account rse_expression : string) : M Response :=
  try_except
    (delete_global_account_limit account rse_expression
       (environ_get request "issuer") (environ_get request "vo"))
    [ ([AccessDenied], http_error 401 "AccessDenied");
      ([AccountNotFound], http_error 404 "AccountNotFound");
      ([RSENotFound], http_error 404 "RSENotFound");
      ([Exception], print_and_500) ]
    (fun _ => ret (mkResponse 200 (Text ""))).

(** dirac.py, [AddFiles.post].  The arguments of [add_files] are
    evaluated left to right inside the [try]. *)
Definition AddFiles_post (request : Request) : M Response :=
  try_except (parse_response (data request))
    [ ([ValueError; InvalidType], fun _ =>
         ret (generate_http_error_flask 400 "ValueError"
                "Cannot decode json parameter list")) ]
    (fun parameters =>
  try_except
    (lfns <- getitem parameters "lfns" ;;
     let issuer := environ_get request "issuer" in
     ignore_availability <- get parameters "ignore_availability" False_ ;;
     add_files lfns issuer ignore_availability)
    [ ([InvalidPath], http_error 400 "InvalidPath");
      ([AccessDenied], http_error 401 "AccessDenied");
      ([UnsupportedOperation], http_error 405 "UnsupportedOperation");
      ([Duplicate], http_error 409 "Duplicate");
      ([DataIdentifierAlreadyExists], http_error 409 "DataIdentifierAlreadyExists");
      ([RSENotFound], http_error 404 "RSENotFound");
      ([DatabaseException], http_error 503 "DatabaseException");
      ([ResourceTemporaryUnavailable], http_error 503 "ResourceTemporaryUnavailable");
      ([RucioException], fun error =>
         emit (PrintedTraceback error) ;;;
         ret (generate_http_error_flask 500 (class_name (exc_class error))
                (exc_args0 error)));
      ([Exception], print_and_500) ]
    (fun _ => ret (mkResponse 201 (Text "Created")))).

Definition handler (op : Operation) (request : Request) : M Response :=
  match op with
  | LocalPost account rse => LocalAccountLimit_post request account rse
  | LocalDelete account rse => LocalAccountLimit_delete request account rse
  | GlobalPost account rse_expression =>
      GlobalAccountLimit_post request account rse_expression
  | GlobalDelete account rse_expression =>
      GlobalAccountLimit_delete request account rse_expression
  | AddFilesPost => AddFiles_post request
  end.

(** Serving one request: the handler starts from an empty trace. *)
Definition serve (op : Operation) (request : Request) : Result Response * Trace :=
  handler op request [].

Definition answer (op : Operation) (request : Request) : Result Response :=
  fst (serve op request).

Definition effects (op : Operation) (request : Request) : Trace :=
  snd (serve op request).

(** ** What the handlers answer *)

Ltac run :=
  unfold answer, effects, serve, handler,
    LocalAccountLimit_post, LocalAccountLimit_delete,
    GlobalAccountLimit_post, GlobalAccountLimit_delete, AddFiles_post,
    try_except, parse_response, loads, getitem, get,
    set_local_account_limit, delete_local_account_limit,
    set_global_account_limit, delete_global_account_limit, add_files,
    invoke, http_error, print_and_500, bind, ret, raise, emit, lift in *;
  simpl in *.

(** Case analysis on what a raised exception is an instance of. *)
Ltac by_class e :=
  destruct e as [[] ? ?]; simpl in *;
  try discriminate; try tauto; try reflexivity.

(** The trace of a handler holds at most one call, and only after the
    body was decoded and the required field found. *)
Lemma invoked_inv (op : Operation) (request : Request) (c : Call) :
  In (Invoked c) (effects op request) ->
  match op with
  | LocalPost account rse =>
      exists items bytes,
        json_decode (data request) = inl (PyDict items) /\
        assoc_get items "bytes" = Some bytes /\
        c = SetLocalAccountLimit account rse bytes
              (environ_get request "issuer") (environ_get request "vo")
  | LocalDelete account rse =>
      c = DeleteLocalAccountLimit account rse
            (environ_get request "issuer") (environ_get request "vo")
  | GlobalPost account rse_expression =>
      exists items bytes,
        json_decode (data request) = inl (PyDict items) /\
        assoc_get items "bytes" = Some bytes /\
        c = SetGlobalAccountLimit account rse_expression bytes
              (environ_get request "issuer") (environ_get request "vo")
  | GlobalDelete account rse_expression =>
      c = DeleteGlobalAccountLimit account rse_expression
            (environ_get request "issuer") (environ_get request "vo")
  | AddFilesPost =>
      exists items lfns,
        json_decode (data request) = inl (PyDict items) /\
        assoc_get items "lfns" = Some lfns /\
        c = AddFilesCall lfns (environ_get request "issuer")
              (match assoc_get items "ignore_availability" with
               | Some v => v
               | None => False_
               end)
  end.
Proof.
  destruct op; run.
  - destruct (json_decode (data request)) as [[]|]; simpl; try tauto.
    destruct (assoc_get items "bytes") eqn:Hb; simpl; try tauto.
    intros H. exists items, p. split; [reflexivity|]. split; [assumption|].
    destruct (api _) as [[]|e]; [|by_class e]; simpl in H; intuition congruence.
  - intros H.
    destruct (api _) as [[]|e]; [|by_class e]; simpl in H; intuition congruence.
  - destruct (json_decode (data request)) as [[]|]; simpl; try tauto.
    destruct (assoc_get items "bytes") eqn:Hb; simpl; try tauto.
    intros H. exists items, p. split; [reflexivity|]. split; [assumption|].
    destruct (api _) as [[]|e]; [|by_class e]; simpl in H; intuition congruence.
  - intros H.
    destruct (api _) as [[]|e]; [|by_class e]; simpl in H; intuition congruence.
  - destruct (json_decode (data request)) as [[]|]; simpl;
      try (intuition discriminate).
    destruct (assoc_get items "lfns") eqn:Hl; simpl;
      try (intuition discriminate).
    intros H. exists items, p. split; [reflexivity|]. split; [assumption|].
    destruct (assoc_get items "ignore_availability"); simpl in H;
      (destruct (api _) as [[]|e]; [|by_class e]; simpl in H;
       intuition congruence).
Qed.


(** After [invoked_inv]: replay the handler up to its call. *)
Ltac replay Hin :=
  apply invoked_inv in Hin;
  match type of Hin with
  | exists _ _, _ =>
      let items := fresh "items" in
      let v := fresh "v" in
      let Hd := fresh "Hd" in
      let Hf := fresh "Hf" in
      destruct Hin as (items & v & Hd & Hf & ->);
      run; rewrite Hd; simpl; rewrite Hf; simpl;
      try (destruct (assoc_get items "ignore_availability"); simpl)
  | _ = _ => subst; run
  end.

(** C5.  A body the decoder rejects, the empty one included, is
    answered 400 with kind [ValueError]: by the limit handlers with
    the message "cannot decode json parameter dictionary", by the
    registration handler with "Cannot decode json parameter list".
    Nothing is called. *)
Theorem undecodable_body_is_400_ValueError (request : Request) (msg : string) :
  json_decode (data request) = inr msg ->
  (forall account rse,
      serve (LocalPost account rse) request =
      (Return (generate_http_error_flask 400 "ValueError"
                 "cannot decode json parameter dictionary"), [])) /\
  (forall account rse_expression,
      serve (GlobalPost account rse_expression) request =
      (Return (generate_http_error_flask 400 "ValueError"
                 "cannot decode json parameter dictionary"), [])) /\
  serve AddFilesPost request =
  (Return (generate_http_error_flask 400 "ValueError"
             "Cannot decode json parameter list"), []).
Proof.
  intros Hd. repeat split; intros; run; rewrite Hd; reflexivity.
Qed.

(** C6.  A body that decodes to anything but an object (a list, a
    string, a number, a boolean, [None]) is answered 400 with kind
    [TypeError] and the message "body must be a json dictionary" by
    both limit handlers. *)
Theorem non_object_body_is_400_TypeError (request : Request) (v : PyVal) :
  json_decode (data request) = inl v ->
  is_dict v = false ->
  forall account name,
    serve (LocalPost account name) request =
    (Return (generate_http_error_flask 400 "TypeError"
               "body must be a json dictionary"), []) /\
    serve (GlobalPost account name) request =
    (Return (generate_http_error_flask 400 "TypeError"
               "body must be a json dictionary"), []).
Proof.
  intros Hd Hv account name.
  split; run; rewrite Hd; destruct v; try discriminate; reflexivity.
Qed.

(** C1.  What the limit handlers do with an object lacking [bytes]:
    the [KeyError] of the lookup has [args[0] = 'bytes'], the clause
    compares it with ['type'] and re-raises.  No response is returned
    and nothing is called. *)
Theorem missing_bytes_escapes_as_KeyError (request : Request)
  (items : list (string * PyVal)) :
  json_decode (data request) = inl (PyDict items) ->
  assoc_get items "bytes" = None ->
  forall account name,
    serve (LocalPost account name) request =
    (Raise (mkExc KeyError "bytes" "'bytes'"), []) /\
    serve (GlobalPost account name) request =
    (Raise (mkExc KeyError "bytes" "'bytes'"), []).
Proof.
  intros Hd Hb account name.
  split; run; rewrite Hd; simpl; rewrite Hb; reflexivity.
Qed.

(** The delete handlers decode nothing and catch whatever the call
    raises: they always answer. *)
Lemma delete_always_answers (request : Request) (account name : string) :
  (exists r, answer (LocalDelete account name) request = Return r) /\
  (exists r, answer (GlobalDelete account name) request = Return r).
Proof.
  split; run; (destruct (api _) as [[]|e]; [|by_class e]; simpl; eauto).
Qed.

(** C2.  Not every request is answered: when a limit is posted with
    an object lacking [bytes], an exception leaves the handler, the
    local one and the global one alike, in place of a response. *)
Theorem limit_post_without_bytes_escapes (request : Request)
  (items : list (string * PyVal)) :
  json_decode (data request) = inl (PyDict items) ->
  assoc_get items "bytes" = None ->
  forall account name,
    (exists e, answer (LocalPost account name) request = Raise e) /\
    (exists e, answer (GlobalPost account name) request = Raise e).
Proof.
  intros Hd Hb account name.
  split; exists (mkExc KeyError "bytes" "'bytes'");
    run; rewrite Hd; simpl; rewrite Hb; reflexivity.
Qed.

(** C3, as the code has it.  An object lacking [lfns] makes the
    lookup raise [KeyError] inside the [try]; the last clause turns
    it into status 500 with the text of the error as body.
    [add_files] is not called. *)
Theorem missing_lfns_is_500_without_call (request : Request)
  (items : list (string * PyVal)) :
  json_decode (data request) = inl (PyDict items) ->
  assoc_get items "lfns" = None ->
  answer AddFilesPost request = Return (mkResponse 500 (Text "'lfns'")) /\
  invoked (effects AddFilesPost request) = [].
Proof.
  intros Hd Hl. split; run; rewrite Hd; simpl; rewrite Hl; reflexivity.
Qed.

(** [InvalidPath] raised by [add_files] is answered 400 with kind
    "InvalidPath": its clause comes first. *)
Lemma InvalidPath_is_400 (request : Request) (c : Call) (e : PyExc) :
  In (Invoked c) (effects AddFilesPost request) ->
  api c = Raise e ->
  exc_class e = InvalidPath ->
  answer AddFilesPost request =
  Return (generate_http_error_flask 400 "InvalidPath" (exc_args0 e)).
Proof.
  intros Hin Hapi Hcls. replay Hin; rewrite Hapi; by_class e.
Qed.

(** C4, as the code has it.  A [RucioException] raised by [add_files]
    whose class has no clause of its own ([InvalidPath] has one, next
    to the seven of the claim) is answered 500 with the name of its
    class as kind and [args[0]] as message. *)
Theorem unnamed_rucio_error_is_500 (request : Request) (c : Call) (e : PyExc) :
  In (Invoked c) (effects AddFilesPost request) ->
  api c = Raise e ->
  is_rucio (exc_class e) = true ->
  ~ In (exc_class e) named_in_AddFiles ->
  answer AddFilesPost request =
  Return (generate_http_error_flask 500 (class_name (exc_class e))
            (exc_args0 e)).
Proof.
  intros Hin Hapi Hr Hn.
  replay Hin; rewrite Hapi; destruct e as [cls a s]; simpl;
    destruct cls; simpl in *; try discriminate; try reflexivity;
    exfalso; apply Hn; tauto.
Qed.

(** C7.  In each of the five handlers, [AccessDenied] raised by the
    call is answered 401 with kind "AccessDenied" and [args[0]] as
    message. *)
Theorem AccessDenied_is_401 (op : Operation) (request : Request)
  (c : Call) (e : PyExc) :
  In (Invoked c) (effects op request) ->
  api c = Raise e ->
  exc_class e = AccessDenied ->
  answer op request =
  Return (generate_http_error_flask 401 "AccessDenied" (exc_args0 e)).
Proof.
  intros Hin Hapi Hcls.
  destruct op; replay Hin; rewrite Hapi; by_class e.
Qed.

(** C8.  An error of [add_files] of one of the listed kinds is
    answered with the status listed for it, the kind's name and
    [args[0]]. *)
Theorem registration_error_has_listed_status (request : Request) (c : Call)
  (e : PyExc) (code : Z) :
  In (Invoked c) (effects AddFilesPost request) ->
  api c = Raise e ->
  In (exc_class e, code) registration_status ->
  answer AddFilesPost request =
  Return (generate_http_error_flask code (class_name (exc_class e))
            (exc_args0 e)).
Proof.
  intros Hin Hapi Hcode.
  replay Hin; rewrite Hapi; destruct e as [cls a s]; simpl in *;
    intuition (try discriminate);
    match goal with H : (_, _) = (_, _) |- _ => inversion H; subst end;
    reflexivity.
Qed.

(** C9.  When the call returns, the delete handlers answer 200 with
    an empty body and the three creating handlers 201 with the body
    "Created". *)
Theorem success_is_200_or_201 (op : Operation) (request : Request) (c : Call) :
  In (Invoked c) (effects op request) ->
  api c = Return tt ->
  answer op request =
  Return (match op with
          | LocalDelete _ _ | GlobalDelete _ _ => mkResponse 200 (Text "")
          | LocalPost _ _ | GlobalPost _ _ | AddFilesPost =>
              mkResponse 201 (Text "Created")
          end).
Proof.
  intros Hin Hapi. destruct op; replay Hin; rewrite Hapi; reflexivity.
Qed.

(** C10.  If [set_local_account_limit] and [set_global_account_limit]
    have the same outcome on the arguments of a request, the two
    limit-creation handlers give the same result on it, an escaping
    exception included, and their traces differ only in the call. *)
Theorem local_and_global_post_agree (request : Request)
  (account rse rse_expression : string) :
  (forall bytes,
      api (SetLocalAccountLimit account rse bytes
             (environ_get request "issuer") (environ_get request "vo")) =
      api (SetGlobalAccountLimit account rse_expression bytes
             (environ_get request "issuer") (environ_get request "vo"))) ->
  answer (LocalPost account rse) request =
  answer (GlobalPost account rse_expression) request /\
  map (to_global rse_expression) (effects (LocalPost account rse) request) =
  effects (GlobalPost account rse_expression) request.
Proof.
  intros Hsame. run.
  destruct (json_decode (data request)) as [[]|]; simpl; auto.
  destruct (assoc_get items "bytes") as [bytes|]; simpl; auto.
  rewrite <- Hsame.
  destruct (api _) as [[]|e]; [|by_class e]; simpl; auto.
Qed.

(** ** Further properties of the handlers *)

(** Every path through a handler: the decoding, the kind of value, the
    required field, the optional one, the outcome of the call and the
    class of what it raised. *)
Ltac paths :=
  repeat match goal with
    | |- context [json_decode ?d] =>
        destruct (json_decode d) as [[]|] eqn:?; simpl
    | |- context [assoc_get ?i ?k] => destruct (assoc_get i k) eqn:?; simpl
    | |- context [api ?c] =>
        destruct (api c) as [[]|[[] ? ?]] eqn:?; simpl
    end.

(** What [invoked_inv] gives, opened. *)
Ltac open_call H :=
  match type of H with
  | exists _ _, _ =>
      let items := fresh "items" in
      let v := fresh "v" in
      let Hd := fresh "Hd" in
      let Hf := fresh "Hf" in
      destruct H as (items & v & Hd & Hf & ->)
  | ?c = _ => subst c
  end.

(** X1.  Whatever the body and whatever the API does, a limit
    creation is answered with 201, 400, 401, 404 or 500, a limit
    deletion with 200, 401, 404 or 500, a registration with 201, 400,
    401, 404, 405, 409, 500 or 503. *)
Theorem status_is_one_of_the_handler (op : Operation) (request : Request)
  (r : Response) :
  answer op request = Return r ->
  In (status r)
    (match op with
     | LocalPost _ _ | GlobalPost _ _ => [201; 400; 401; 404; 500]
     | LocalDelete _ _ | GlobalDelete _ _ => [200; 401; 404; 500]
     | AddFilesPost => [201; 400; 401; 404; 405; 409; 500; 503]
     end).
Proof.
  destruct op; run; paths; intros H; inversion H; subst; simpl; tauto.
Qed.

(** X2.  A handler calls the API at most once per request: no retry
    on any path. *)
Theorem at_most_one_call (op : Operation) (request : Request) :
  (length (invoked (effects op request)) <= 1)%nat.
Proof.
  destruct op; run; paths; auto.
Qed.

(** X3.  A traceback is printed exactly when the request is answered
    with status 500. *)
Theorem traceback_iff_500 (op : Operation) (request : Request) :
  (exists e, In (PrintedTraceback e) (effects op request)) <->
  (exists r, answer op request = Return r /\ status r = 500).
Proof.
  destruct op; run; paths;
    (split;
     [ intros [x Hx]; simpl in Hx;
       try (eexists; split; [reflexivity|reflexivity]);
       exfalso; intuition discriminate
     | intros [x [Hx Hs]];
       try (inversion Hx; subst; simpl in Hs; discriminate Hs);
       try discriminate Hx;
       eexists; simpl; eauto ]).
Qed.

(** X4.  Success is answered only after the call returned: a 200 or
    201 means exactly one call was made and it did not raise. *)
Theorem success_only_after_call (op : Operation) (request : Request)
  (r : Response) :
  answer op request = Return r ->
  status r = 200 \/ status r = 201 ->
  exists c, invoked (effects op request) = [c] /\ api c = Return tt.
Proof.
  destruct op; run; paths; intros H Hs; inversion H; subst; simpl in Hs;
    try (destruct Hs; discriminate);
    (eexists; split; [reflexivity|eassumption]).
Qed.

(** X5.  The error objects a limit handler answers have kind
    ValueError, TypeError, AccessDenied, RSENotFound or
    AccountNotFound.  The kind KeyError of the clause around
    [parameter['bytes']] is never answered. *)
Theorem limit_error_kinds (op : Operation) (request : Request)
  (code : Z) (kind msg : string) :
  op <> AddFilesPost ->
  answer op request = Return (mkResponse code (ErrorObject kind msg)) ->
  In kind ["ValueError"; "TypeError"; "AccessDenied"; "RSENotFound";
           "AccountNotFound"].
Proof.
  intros Hop. destruct op; try congruence; clear Hop; run; paths;
    intros H; inversion H; subst; simpl; tauto.
Qed.

(** X6.  In the four limit handlers, [RSENotFound] and
    [AccountNotFound] raised by the call are answered 404 with the
    name of the class as kind and [args[0]] as message, whichever of
    the two clauses comes first. *)
Theorem not_found_is_404 (op : Operation) (request : Request) (c : Call)
  (e : PyExc) :
  op <> AddFilesPost ->
  In (Invoked c) (effects op request) ->
  api c = Raise e ->
  exc_class e = RSENotFound \/ exc_class e = AccountNotFound ->
  answer op request =
  Return (generate_http_error_flask 404 (class_name (exc_class e))
            (exc_args0 e)).
Proof.
  intros Hop Hin Hapi Hcls.
  destruct op; try congruence; replay Hin; rewrite Hapi;
    destruct e as [cls a s]; simpl in *; destruct Hcls; subst cls;
    reflexivity.
Qed.



(** X9.  The four limit handlers translate an error of the call in
    the same way: creation or deletion, local or global, the answer
    depends on the exception only. *)
Theorem limit_errors_translate_alike (op1 op2 : Operation)
  (request1 request2 : Request) (c1 c2 : Call) (e : PyExc) :
  op1 <> AddFilesPost ->
  op2 <> AddFilesPost ->
  In (Invoked c1) (effects op1 request1) ->
  In (Invoked c2) (effects op2 request2) ->
  api c1 = Raise e ->
  api c2 = Raise e ->
  answer op1 request1 = answer op2 request2.
Proof.
  intros H1 H2 Hin1 Hin2 Ha1 Ha2.
  apply invoked_inv in Hin1. apply invoked_inv in Hin2.
  destruct op1; try congruence; destruct op2; try congruence;
    clear H1 H2; open_call Hin1; open_call Hin2; run;
    repeat match goal with
      | H : json_decode _ = _ |- _ => rewrite H; simpl
      | H : assoc_get _ _ = _ |- _ => rewrite H; simpl
      end;
    rewrite Ha1, Ha2; destruct e as [[] a s]; reflexivity.
Qed.

(** X10.  A limit creation whose body is an object with [bytes]
    makes one call, with the path parameters, the value under [bytes]
    as decoded, whatever its type, and [issuer] and [vo] of the
    environment, [None] where the environment lacks them. *)
Theorem limit_post_forwards_bytes (request : Request)
  (items : list (string * PyVal)) (bytes : PyVal) :
  json_decode (data request) = inl (PyDict items) ->
  assoc_get items "bytes" = Some bytes ->
  forall account name,
    invoked (effects (LocalPost account name) request) =
    [SetLocalAccountLimit account name bytes
       (environ_get request "issuer") (environ_get request "vo")] /\
    invoked (effects (GlobalPost account name) request) =
    [SetGlobalAccountLimit account name bytes
       (environ_get request "issuer") (environ_get request "vo")].
Proof.
  intros Hd Hb account name.
  split; run; rewrite Hd; simpl; rewrite Hb; simpl; paths; reflexivity.
Qed.

(** X11.  A registration whose body is an object with [lfns] makes
    one call, with the value under [lfns], the [issuer] of the
    environment and the value under [ignore_availability], [False]
    when the object has no such key. *)
Theorem addfiles_forwards_lfns (request : Request)
  (items : list (string * PyVal)) (lfns : PyVal) :
  json_decode (data request) = inl (PyDict items) ->
  assoc_get items "lfns" = Some lfns ->
  invoked (effects AddFilesPost request) =
  [AddFilesCall lfns (environ_get request "issuer")
     (match assoc_get items "ignore_availability" with
      | Some v => v
      | None => False_
      end)].
Proof.
  intros Hd Hl. run; rewrite Hd; simpl; rewrite Hl; simpl; paths; reflexivity.
Qed.

(** X12.  A registration whose body decodes to something that is no
    object is answered 500 with the interpreter's message as plain
    body, not 400 as by the limit handlers; [add_files] is not
    called. *)
Theorem addfiles_non_object_body_is_500 (request : Request) (v : PyVal) :
  json_decode (data request) = inl v ->
  is_dict v = false ->
  answer AddFilesPost request =
  Return (mkResponse 500 (Text (subscript_error_text v))) /\
  invoked (effects AddFilesPost request) = [].
Proof.
  intros Hd Hv.
  split; run; rewrite Hd; destruct v; try discriminate; reflexivity.
Qed.

(** X13.  The delete handlers do not read the body: two requests with
    the same environment are served alike, also when the body is no
    JSON at all. *)
Theorem delete_ignores_body (request1 request2 : Request)
  (account name : string) :
  environ request1 = environ request2 ->
  serve (LocalDelete account name) request1 =
  serve (LocalDelete account name) request2 /\
  serve (GlobalDelete account name) request1 =
  serve (GlobalDelete account name) request2.
Proof.
  intros He. unfold serve, handler, LocalAccountLimit_delete,
    GlobalAccountLimit_delete, environ_get. rewrite He. split; reflexivity.
Qed.

(** X14.  If [delete_local_account_limit] and
    [delete_global_account_limit] have the same outcome for a request,
    the two delete handlers give the same answer, and their traces
    differ only in the call. *)
Theorem local_and_global_delete_agree (request : Request)
  (account rse rse_expression : string) :
  api (DeleteLocalAccountLimit account rse
         (environ_get request "issuer") (environ_get request "vo")) =
  api (DeleteGlobalAccountLimit account rse_expression
         (environ_get request "issuer") (environ_get request "vo")) ->
  answer (LocalDelete account rse) request =
  answer (GlobalDelete account rse_expression) request /\
  map (delete_to_global rse_expression)
    (effects (LocalDelete account rse) request) =
  effects (GlobalDelete account rse_expression) request.
Proof.
  intros Hsame. run. rewrite <- Hsame.
  destruct (api _) as [[]|e]; [|by_class e]; simpl; auto.
Qed.

(** X15.  The API is called exactly when the request gets past the
    validation: always for a deletion, and for a creation or a
    registration when the body decodes to an object holding the
    required key. *)
Theorem call_iff_body_valid (op : Operation) (request : Request) :
  (exists c, In (Invoked c) (effects op request)) <->
  (match op with
   | LocalPost _ _ | GlobalPost _ _ =>
       exists items bytes,
         json_decode (data request) = inl (PyDict items) /\
         assoc_get items "bytes" = Some bytes
   | LocalDelete _ _ | GlobalDelete _ _ => True
   | AddFilesPost =>
       exists items lfns,
         json_decode (data request) = inl (PyDict items) /\
         assoc_get items "lfns" = Some lfns
   end).
Proof.
  split.
  - intros [c Hin]. apply invoked_inv in Hin.
    destruct op; try exact I;
      destruct Hin as (items & v & Hd & Hf & _); eauto.
  - destruct op;
      try (intros (items & v & Hd & Hf));
      try intros _;
      run; rewrite ?Hd; simpl; rewrite ?Hf; simpl; paths;
      eexists; left; reflexivity.
Qed.

End Handlers.

(** ** The theorems at concrete requests

    The decoder is [JsonReader.decode]; the API either succeeds or
    raises a fixed exception. *)

Local Notation served api :=
  (serve JsonReader.decode api Sample.not_subscriptable Sample.no_attribute).
Local Notation answered api :=
  (answer JsonReader.decode api Sample.not_subscriptable Sample.no_attribute).
Local Notation effected api :=
  (effects JsonReader.decode api Sample.not_subscriptable Sample.no_attribute).

(** The empty body. *)
Lemma undecodable_body_witness :
  JsonReader.decode (data Sample.empty_request) = inr "Expecting value" /\
  (forall account rse,
      served Sample.api_ok (LocalPost account rse) Sample.empty_request =
      (Return (generate_http_error_flask 400 "ValueError"
                 "cannot decode json parameter dictionary"), [])) /\
  (forall account rse_expression,
      served Sample.api_ok (GlobalPost account rse_expression)
        Sample.empty_request =
      (Return (generate_http_error_flask 400 "ValueError"
                 "cannot decode json parameter dictionary"), [])) /\
  served Sample.api_ok AddFilesPost Sample.empty_request =
  (Return (generate_http_error_flask 400 "ValueError"
             "Cannot decode json parameter list"), []).
Proof.
  split; [reflexivity|].
  apply (undecodable_body_is_400_ValueError JsonReader.decode Sample.api_ok
           Sample.not_subscriptable Sample.no_attribute
           Sample.empty_request "Expecting value").
  reflexivity.
Defined.

(** The body [[1, 2]]. *)
Lemma non_object_body_witness :
  JsonReader.decode (data Sample.list_request) = inl (PyList [PyInt 1; PyInt 2]) /\
  is_dict (PyList [PyInt 1; PyInt 2]) = false /\
  served Sample.api_ok (LocalPost "alice" "RSE1") Sample.list_request =
  (Return (generate_http_error_flask 400 "TypeError"
             "body must be a json dictionary"), []) /\
  served Sample.api_ok (GlobalPost "alice" "RSE1") Sample.list_request =
  (Return (generate_http_error_flask 400 "TypeError"
             "body must be a json dictionary"), []).
Proof.
  split; [reflexivity|]. split; [reflexivity|].
  apply (non_object_body_is_400_TypeError JsonReader.decode Sample.api_ok
           Sample.not_subscriptable Sample.no_attribute
           Sample.list_request (PyList [PyInt 1; PyInt 2]));
    reflexivity.
Defined.

(** The body [{}] posted to a limit. *)
Lemma missing_bytes_witness :
  JsonReader.decode (data Sample.empty_object_request) = inl (PyDict []) /\
  assoc_get [] "bytes" = None /\
  served Sample.api_ok (LocalPost "alice" "RSE1") Sample.empty_object_request =
  (Raise (mkExc KeyError "bytes" "'bytes'"), []) /\
  served Sample.api_ok (GlobalPost "alice" "RSE1") Sample.empty_object_request =
  (Raise (mkExc KeyError "bytes" "'bytes'"), []).
Proof.
  split; [reflexivity|]. split; [reflexivity|].
  apply (missing_bytes_escapes_as_KeyError JsonReader.decode Sample.api_ok
           Sample.not_subscriptable Sample.no_attribute
           Sample.empty_object_request []);
    reflexivity.
Defined.

(** The body [{}] posted to a limit: the exception escapes. *)
Lemma escapes_witness :
  JsonReader.decode (data Sample.empty_object_request) = inl (PyDict []) /\
  assoc_get [] "bytes" = None /\
  (exists e,
      answered Sample.api_ok (LocalPost "alice" "RSE1")
        Sample.empty_object_request = Raise e) /\
  (exists e,
      answered Sample.api_ok (GlobalPost "alice" "RSE1")
        Sample.empty_object_request = Raise e).
Proof.
  split; [reflexivity|]. split; [reflexivity|].
  apply (limit_post_without_bytes_escapes JsonReader.decode Sample.api_ok
           Sample.not_subscriptable Sample.no_attribute
           Sample.empty_object_request []);
    reflexivity.
Defined.

(** The body [{}] posted to [/addfiles]. *)
Lemma missing_lfns_witness :
  JsonReader.decode (data Sample.empty_object_request) = inl (PyDict []) /\
  assoc_get [] "lfns" = None /\
  answered Sample.api_ok AddFilesPost Sample.empty_object_request =
  Return (mkResponse 500 (Text "'lfns'")) /\
  invoked (effected Sample.api_ok AddFilesPost Sample.empty_object_request) = [].
Proof.
  split; [reflexivity|]. split; [reflexivity|].
  apply (missing_lfns_is_500_without_call JsonReader.decode Sample.api_ok
           Sample.not_subscriptable Sample.no_attribute
           Sample.empty_object_request []);
    reflexivity.
Defined.

(** The claim of 400 for a missing [lfns] fails on the body [{}]: the
    body decodes to an object without [lfns] and the answer has
    status 500. *)
Lemma missing_lfns_is_not_400 :
  JsonReader.decode (data Sample.empty_object_request) = inl (PyDict []) /\
  assoc_get [] "lfns" = None /\
  answered Sample.api_ok AddFilesPost Sample.empty_object_request =
  Return (mkResponse 500 (Text "'lfns'")) /\
  forall body,
    answered Sample.api_ok AddFilesPost Sample.empty_object_request <>
    Return (mkResponse 400 body).
Proof.
  repeat split; try reflexivity.
  intros body H. vm_compute in H. discriminate H.
Qed.

(** The call [add_files] receives for [Sample.lfns_request]. *)
Local Notation lfns_call :=
  (AddFilesCall (PyList [PyDict [("lfn", PyStr "/lhcb/user/f")]])
     (PyStr "root") False_).

(** [add_files] raising [ScopeNotFound]. *)
Lemma unnamed_rucio_error_witness :
  In (Invoked lfns_call)
    (effected (Sample.api_raising Sample.no_scope) AddFilesPost
       Sample.lfns_request) /\
  Sample.api_raising Sample.no_scope lfns_call = Raise Sample.no_scope /\
  is_rucio (exc_class Sample.no_scope) = true /\
  ~ In (exc_class Sample.no_scope) named_in_AddFiles /\
  answered (Sample.api_raising Sample.no_scope) AddFilesPost
    Sample.lfns_request =
  Return (generate_http_error_flask 500 "ScopeNotFound" "Scope lhcb not found").
Proof.
  assert (Hn : ~ In (exc_class Sample.no_scope) named_in_AddFiles)
    by (simpl; intuition discriminate).
  split; [left; reflexivity|]. split; [reflexivity|].
  split; [reflexivity|]. split; [exact Hn|].
  apply (unnamed_rucio_error_is_500 JsonReader.decode
           (Sample.api_raising Sample.no_scope)
           Sample.not_subscriptable Sample.no_attribute
           Sample.lfns_request lfns_call Sample.no_scope);
    [left; reflexivity | reflexivity | reflexivity | exact Hn].
Defined.

(** The claim of 500 for every domain error outside its list fails
    for [InvalidPath]: a [RucioException], not among the seven the
    claim excludes, answered 400. *)
Lemma InvalidPath_is_not_500 :
  is_rucio (exc_class Sample.bad_path) = true /\
  ~ In (exc_class Sample.bad_path)
      [ AccessDenied; RSENotFound; UnsupportedOperation; Duplicate;
        DataIdentifierAlreadyExists; DatabaseException;
        ResourceTemporaryUnavailable ] /\
  In (Invoked lfns_call)
    (effected (Sample.api_raising Sample.bad_path) AddFilesPost
       Sample.lfns_request) /\
  answered (Sample.api_raising Sample.bad_path) AddFilesPost
    Sample.lfns_request =
  Return (generate_http_error_flask 400 "InvalidPath"
            "The path does not follow the convention") /\
  answered (Sample.api_raising Sample.bad_path) AddFilesPost
    Sample.lfns_request <>
  Return (generate_http_error_flask 500
            (class_name (exc_class Sample.bad_path))
            (exc_args0 Sample.bad_path)).
Proof.
  split; [reflexivity|].
  split; [simpl; intuition discriminate|].
  split; [left; reflexivity|].
  split.
  - apply (InvalidPath_is_400 JsonReader.decode
             (Sample.api_raising Sample.bad_path)
             Sample.not_subscriptable Sample.no_attribute
             Sample.lfns_request lfns_call Sample.bad_path);
      [left; reflexivity | reflexivity | reflexivity].
  - intros H. vm_compute in H. discriminate H.
Qed.

(** [delete_local_account_limit] raising [AccessDenied]. *)
Lemma AccessDenied_witness :
  In (Invoked (DeleteLocalAccountLimit "alice" "RSE1" (PyStr "root") (PyStr "def")))
    (effected (Sample.api_raising Sample.denied) (LocalDelete "alice" "RSE1")
       Sample.empty_request) /\
  exc_class Sample.denied = AccessDenied /\
  answered (Sample.api_raising Sample.denied) (LocalDelete "alice" "RSE1")
    Sample.empty_request =
  Return (generate_http_error_flask 401 "AccessDenied"
            "Account root is not allowed").
Proof.
  split; [left; reflexivity|]. split; [reflexivity|].
  apply (AccessDenied_is_401 JsonReader.decode
           (Sample.api_raising Sample.denied)
           Sample.not_subscriptable Sample.no_attribute
           (LocalDelete "alice" "RSE1") Sample.empty_request
           (DeleteLocalAccountLimit "alice" "RSE1" (PyStr "root") (PyStr "def"))
           Sample.denied);
    [left; reflexivity | reflexivity | reflexivity].
Defined.

(** Scenario E: a file of the request exists already. *)
Lemma registration_error_witness :
  In (Invoked lfns_call)
    (effected (Sample.api_raising Sample.exists_already) AddFilesPost
       Sample.lfns_request) /\
  In (exc_class Sample.exists_already, 409) registration_status /\
  answered (Sample.api_raising Sample.exists_already) AddFilesPost
    Sample.lfns_request =
  Return (generate_http_error_flask 409 "DataIdentifierAlreadyExists"
            "Data identifier already exists").
Proof.
  split; [left; reflexivity|].
  split; [right; right; left; reflexivity|].
  apply (registration_error_has_listed_status JsonReader.decode
           (Sample.api_raising Sample.exists_already)
           Sample.not_subscriptable Sample.no_attribute
           Sample.lfns_request lfns_call Sample.exists_already 409);
    [left; reflexivity | reflexivity | right; right; left; reflexivity].
Defined.

(** Scenario A: a limit of 1000 bytes is set. *)
Lemma success_witness :
  In (Invoked (SetLocalAccountLimit "alice" "RSE1" (PyInt 1000)
                 (PyStr "root") (PyStr "def")))
    (effected Sample.api_ok (LocalPost "alice" "RSE1") Sample.limit_request) /\
  answered Sample.api_ok (LocalPost "alice" "RSE1") Sample.limit_request =
  Return (mkResponse 201 (Text "Created")).
Proof.
  split; [left; reflexivity|].
  apply (success_is_200_or_201 JsonReader.decode Sample.api_ok
           Sample.not_subscriptable Sample.no_attribute
           (LocalPost "alice" "RSE1") Sample.limit_request
           (SetLocalAccountLimit "alice" "RSE1" (PyInt 1000)
              (PyStr "root") (PyStr "def")));
    [left; reflexivity | reflexivity].
Defined.

(** Both functions refusing the caller. *)
Lemma local_and_global_post_witness :
  answered (Sample.api_raising Sample.denied) (LocalPost "alice" "RSE1")
    Sample.limit_request =
  answered (Sample.api_raising Sample.denied) (GlobalPost "alice" "RSE1|RSE2")
    Sample.limit_request /\
  map (to_global "RSE1|RSE2")
    (effected (Sample.api_raising Sample.denied) (LocalPost "alice" "RSE1")
       Sample.limit_request) =
  effected (Sample.api_raising Sample.denied) (GlobalPost "alice" "RSE1|RSE2")
    Sample.limit_request.
Proof.
  apply (local_and_global_post_agree JsonReader.decode
           (Sample.api_raising Sample.denied)
           Sample.not_subscriptable Sample.no_attribute
           Sample.limit_request "alice" "RSE1" "RSE1|RSE2").
  intros bytes. reflexivity.
Defined.

(** ** The further properties at concrete requests *)

Local Notation delete_call :=
  (DeleteLocalAccountLimit "alice" "RSE1" (PyStr "root") (PyStr "def")).
Local Notation limit_call :=
  (SetLocalAccountLimit "alice" "RSE1" (PyInt 1000) (PyStr "root") (PyStr "def")).

Lemma status_witness :
  answered Sample.api_ok (LocalPost "alice" "RSE1") Sample.limit_request =
  Return (mkResponse 201 (Text "Created")) /\
  In (status (mkResponse 201 (Text "Created"))) [201; 400; 401; 404; 500].
Proof.
  split; [reflexivity|].
  apply (status_is_one_of_the_handler JsonReader.decode Sample.api_ok
           Sample.not_subscriptable Sample.no_attribute
           (LocalPost "alice" "RSE1") Sample.limit_request
           (mkResponse 201 (Text "Created"))).
  reflexivity.
Defined.

(** A deletion failing on a lost connection. *)
Lemma traceback_witness :
  exists r,
    answered (Sample.api_raising Sample.broken) (LocalDelete "alice" "RSE1")
      Sample.empty_request = Return r /\ status r = 500.
Proof.
  apply (proj1 (traceback_iff_500 JsonReader.decode
                  (Sample.api_raising Sample.broken)
                  Sample.not_subscriptable Sample.no_attribute
                  (LocalDelete "alice" "RSE1") Sample.empty_request)).
  exists Sample.broken. right. left. reflexivity.
Defined.

Lemma success_only_after_call_witness :
  answered Sample.api_ok (LocalPost "alice" "RSE1") Sample.limit_request =
  Return (mkResponse 201 (Text "Created")) /\
  exists c,
    invoked (effected Sample.api_ok (LocalPost "alice" "RSE1")
               Sample.limit_request) = [c] /\
    Sample.api_ok c = Return tt.
Proof.
  split; [reflexivity|].
  apply (success_only_after_call JsonReader.decode Sample.api_ok
           Sample.not_subscriptable Sample.no_attribute
           (LocalPost "alice" "RSE1") Sample.limit_request
           (mkResponse 201 (Text "Created")));
    [reflexivity | right; reflexivity].
Defined.

(** The body [[1, 2]] posted to a limit. *)
Lemma limit_error_kinds_witness :
  LocalPost "alice" "RSE1" <> AddFilesPost /\
  answered Sample.api_ok (LocalPost "alice" "RSE1") Sample.list_request =
  Return (mkResponse 400
            (ErrorObject "TypeError" "body must be a json dictionary")) /\
  In "TypeError" ["ValueError"; "TypeError"; "AccessDenied"; "RSENotFound";
                  "AccountNotFound"].
Proof.
  split; [discriminate|]. split; [reflexivity|].
  apply (limit_error_kinds JsonReader.decode Sample.api_ok
           Sample.not_subscriptable Sample.no_attribute
           (LocalPost "alice" "RSE1") Sample.list_request
           400 "TypeError" "body must be a json dictionary");
    [discriminate | reflexivity].
Defined.

(** Scenario D of the spec, on the local handler: the account does
    not exist. *)
Lemma not_found_witness :
  In (Invoked delete_call)
    (effected (Sample.api_raising Sample.no_account)
       (LocalDelete "alice" "RSE1") Sample.empty_request) /\
  exc_class Sample.no_account = AccountNotFound /\
  answered (Sample.api_raising Sample.no_account)
    (LocalDelete "alice" "RSE1") Sample.empty_request =
  Return (generate_http_error_flask 404 "AccountNotFound"
            "Account alice does not exist").
Proof.
  split; [left; reflexivity|]. split; [reflexivity|].
  apply (not_found_is_404 JsonReader.decode
           (Sample.api_raising Sample.no_account)
           Sample.not_subscriptable Sample.no_attribute
           (LocalDelete "alice" "RSE1") Sample.empty_request
           delete_call Sample.no_account);
    [discriminate | left; reflexivity | reflexivity | right; reflexivity].
Defined.



(** A local creation and a global deletion, both on a missing account. *)
Lemma limit_errors_translate_alike_witness :
  answered (Sample.api_raising Sample.no_account)
    (LocalPost "alice" "RSE1") Sample.limit_request =
  answered (Sample.api_raising Sample.no_account)
    (GlobalDelete "alice" "RSE1|RSE2") Sample.empty_request.
Proof.
  apply (limit_errors_translate_alike JsonReader.decode
           (Sample.api_raising Sample.no_account)
           Sample.not_subscriptable Sample.no_attribute
           (LocalPost "alice" "RSE1") (GlobalDelete "alice" "RSE1|RSE2")
           Sample.limit_request Sample.empty_request
           limit_call
           (DeleteGlobalAccountLimit "alice" "RSE1|RSE2"
              (PyStr "root") (PyStr "def"))
           Sample.no_account);
    [discriminate | discriminate | left; reflexivity | left; reflexivity
    | reflexivity | reflexivity].
Defined.

(** A limit given as a string, and no [vo] in the environment. *)
Lemma limit_post_forwards_witness :
  JsonReader.decode (data Sample.text_limit_request) =
  inl (PyDict [("bytes", PyStr "lots")]) /\
  invoked (effected Sample.api_ok (LocalPost "alice" "RSE1")
             Sample.text_limit_request) =
  [SetLocalAccountLimit "alice" "RSE1" (PyStr "lots") (PyStr "root") PyNone] /\
  invoked (effected Sample.api_ok (GlobalPost "alice" "RSE1")
             Sample.text_limit_request) =
  [SetGlobalAccountLimit "alice" "RSE1" (PyStr "lots") (PyStr "root") PyNone].
Proof.
  split; [reflexivity|].
  apply (limit_post_forwards_bytes JsonReader.decode Sample.api_ok
           Sample.not_subscriptable Sample.no_attribute
           Sample.text_limit_request [("bytes", PyStr "lots")] (PyStr "lots"));
    reflexivity.
Defined.

(** No [ignore_availability] in the body. *)
Lemma addfiles_forwards_witness :
  JsonReader.decode (data Sample.lfns_request) =
  inl (PyDict [("lfns", PyList [PyDict [("lfn", PyStr "/lhcb/user/f")]])]) /\
  invoked (effected Sample.api_ok AddFilesPost Sample.lfns_request) =
  [lfns_call].
Proof.
  split; [reflexivity|].
  apply (addfiles_forwards_lfns JsonReader.decode Sample.api_ok
           Sample.not_subscriptable Sample.no_attribute
           Sample.lfns_request
           [("lfns", PyList [PyDict [("lfn", PyStr "/lhcb/user/f")]])]
           (PyList [PyDict [("lfn", PyStr "/lhcb/user/f")]]));
    reflexivity.
Defined.

(** The body [[1, 2]] posted to [/addfiles]. *)
Lemma addfiles_non_object_witness :
  JsonReader.decode (data Sample.list_request) =
  inl (PyList [PyInt 1; PyInt 2]) /\
  answered Sample.api_ok AddFilesPost Sample.list_request =
  Return (mkResponse 500 (Text "object is not subscriptable")) /\
  invoked (effected Sample.api_ok AddFilesPost Sample.list_request) = [].
Proof.
  split; [reflexivity|].
  apply (addfiles_non_object_body_is_500 JsonReader.decode Sample.api_ok
           Sample.not_subscriptable Sample.no_attribute
           Sample.list_request (PyList [PyInt 1; PyInt 2]));
    reflexivity.
Defined.

(** An empty body and the body [[1, 2]]. *)
Lemma delete_ignores_body_witness :
  data Sample.empty_request <> data Sample.list_request /\
  served (Sample.api_raising Sample.denied) (LocalDelete "alice" "RSE1")
    Sample.empty_request =
  served (Sample.api_raising Sample.denied) (LocalDelete "alice" "RSE1")
    Sample.list_request /\
  served (Sample.api_raising Sample.denied) (GlobalDelete "alice" "RSE1")
    Sample.empty_request =
  served (Sample.api_raising Sample.denied) (GlobalDelete "alice" "RSE1")
    Sample.list_request.
Proof.
  split; [discriminate|].
  apply (delete_ignores_body JsonReader.decode
           (Sample.api_raising Sample.denied)
           Sample.not_subscriptable Sample.no_attribute
           Sample.empty_request Sample.list_request "alice" "RSE1").
  reflexivity.
Defined.

Lemma local_and_global_delete_witness :
  answered Sample.api_ok (LocalDelete "alice" "RSE1") Sample.empty_request =
  answered Sample.api_ok (GlobalDelete "alice" "RSE1|RSE2")
    Sample.empty_request /\
  map (delete_to_global "RSE1|RSE2")
    (effected Sample.api_ok (LocalDelete "alice" "RSE1") Sample.empty_request) =
  effected Sample.api_ok (GlobalDelete "alice" "RSE1|RSE2")
    Sample.empty_request.
Proof.
  apply (local_and_global_delete_agree JsonReader.decode Sample.api_ok
           Sample.not_subscriptable Sample.no_attribute
           Sample.empty_request "alice" "RSE1" "RSE1|RSE2").
  reflexivity.
Defined.

(** A registration with [lfns] is passed on. *)
Lemma call_iff_body_valid_witness :
  exists c,
    In (Invoked c)
      (effected Sample.api_ok AddFilesPost Sample.lfns_request).
Proof.
  apply (proj2 (call_iff_body_valid JsonReader.decode Sample.api_ok
                  Sample.not_subscriptable Sample.no_attribute
                  AddFilesPost Sample.lfns_request)).
  exists [("lfns", PyList [PyDict [("lfn", PyStr "/lhcb/user/f")]])],
         (PyList [PyDict [("lfn", PyStr "/lhcb/user/f")]]).
  split; reflexivity.
Defined.
